(** * A shallow embedding of [ithaca/scheduler.py] ([SimpleScheduler])

    The scheduler object and the operating-system resources it touches
    (PID file, command socket, status file, process table) form one
    world record.  Python code that raises and catches exceptions is
    written in a small state-and-exception monad [M]; [try/except] and
    [try/finally] are [try_except] and [try_finally]. *)

From Stdlib Require Import String Ascii ZArith List Bool Lia.
Import ListNotations.
Open Scope Z_scope.
Open Scope string_scope.

(** ** Python exceptions *)

Inductive exn :=
| ValueError
| IndexError
| OSError
| OverflowError
| KeyboardInterrupt
| SystemExit
| OtherExn (msg : string).

(** [except Exception] catches everything but the [BaseException]s
    [KeyboardInterrupt] and [SystemExit]. *)
Definition is_exception (e : exn) : bool :=
  match e with
  | KeyboardInterrupt | SystemExit => false
  | _ => true
  end.

(** [str(e)], as used by ["Command error: {e}"]. *)
Definition exn_msg (e : exn) : string :=
  match e with
  | ValueError => "invalid literal for int()"
  | IndexError => "list index out of range"
  | OSError => "OS error"
  | OverflowError => "signed integer is greater than maximum"
  | KeyboardInterrupt => ""
  | SystemExit => ""
  | OtherExn m => m
  end.

(** ** Data *)

(** The bound workflow: whether it has an [init_run] attribute
    ([hasattr(self.workflow, "init_run")]) and the result of
    [str(self.workflow)] ([None]: [__str__] raises). *)
Record Workflow := mkWorkflow {
  has_init_run : bool;
  wf_repr : option string
}.

(** Which workflow method [_execute_step] called. *)
Inductive Variant := InitRun | LoopRun.

(** The dictionary returned by [get_status]. Timestamps are seconds. *)
Record Snapshot := mkSnapshot {
  sn_name : string;
  sn_running : bool;
  sn_paused : bool;
  sn_daemon_mode : bool;
  sn_step_count : Z;
  sn_interval_seconds : Z;
  sn_start_time : option Z;
  sn_last_run_time : option Z;
  sn_next_run_time : option Z;
  sn_uptime_seconds : Z;
  sn_pid : Z;
  sn_workflow : string
}.

(** How [_write_pid_file]'s [open(self.pid_file, 'w')] and
    [f.write(...)] go: both succeed, [open] fails (no file is created),
    or the write fails after [open] created or truncated the file. *)
Inductive PidWrite := PidOk | PidOpenFails | PidWriteFails.

(** The [SimpleScheduler] attributes together with the process's view
    of the machine: [clock] ([datetime.now()]), [my_pid]
    ([os.getpid()]), the ids [procs] of the live processes it may
    signal, the PID file (its content, if it exists), the socket file,
    the status file, whether the status file can be written, how
    writing the PID file goes, whether the socket can be bound apart
    from the length of its path, and the log of workflow calls. *)
Record World := mkWorld {
  name : string;
  workflow : Workflow;
  interval_seconds : Z;
  running : bool;
  paused : bool;
  step_count : Z;
  start_time : option Z;
  last_run_time : option Z;
  next_run_time : option Z;
  daemon_mode : bool;
  command_server : bool;
  clock : Z;
  my_pid : Z;
  procs : list Z;
  pid_file : option string;
  sock_file : bool;
  status_file : option Snapshot;
  status_writable : bool;
  pid_write : PidWrite;
  sock_bindable : bool;
  calls : list Variant
}.

Definition set_running (b : bool) (w : World) : World :=
  {| name := name w; workflow := workflow w; interval_seconds := interval_seconds w;
     running := b; paused := paused w; step_count := step_count w;
     start_time := start_time w; last_run_time := last_run_time w;
     next_run_time := next_run_time w; daemon_mode := daemon_mode w;
     command_server := command_server w; clock := clock w; my_pid := my_pid w;
     procs := procs w; pid_file := pid_file w; sock_file := sock_file w;
     status_file := status_file w; status_writable := status_writable w;
     pid_write := pid_write w; sock_bindable := sock_bindable w;
     calls := calls w |}.

Definition set_paused (b : bool) (w : World) : World :=
  {| name := name w; workflow := workflow w; interval_seconds := interval_seconds w;
     running := running w; paused := b; step_count := step_count w;
     start_time := start_time w; last_run_time := last_run_time w;
     next_run_time := next_run_time w; daemon_mode := daemon_mode w;
     command_server := command_server w; clock := clock w; my_pid := my_pid w;
     procs := procs w; pid_file := pid_file w; sock_file := sock_file w;
     status_file := status_file w; status_writable := status_writable w;
     pid_write := pid_write w; sock_bindable := sock_bindable w;
     calls := calls w |}.

Definition set_interval (n : Z) (w : World) : World :=
  {| name := name w; workflow := workflow w; interval_seconds := n;
     running := running w; paused := paused w; step_count := step_count w;
     start_time := start_time w; last_run_time := last_run_time w;
     next_run_time := next_run_time w; daemon_mode := daemon_mode w;
     command_server := command_server w; clock := clock w; my_pid := my_pid w;
     procs := procs w; pid_file := pid_file w; sock_file := sock_file w;
     status_file := status_file w; status_writable := status_writable w;
     pid_write := pid_write w; sock_bindable := sock_bindable w;
     calls := calls w |}.

(** [self.step_count += 1; self.last_run_time = step_end] *)
Definition record_success (w : World) : World :=
  {| name := name w; workflow := workflow w; interval_seconds := interval_seconds w;
     running := running w; paused := paused w; step_count := step_count w + 1;
     start_time := start_time w; last_run_time := Some (clock w);
     next_run_time := next_run_time w; daemon_mode := daemon_mode w;
     command_server := command_server w; clock := clock w; my_pid := my_pid w;
     procs := procs w; pid_file := pid_file w; sock_file := sock_file w;
     status_file := status_file w; status_writable := status_writable w;
     pid_write := pid_write w; sock_bindable := sock_bindable w;
     calls := calls w |}.

(** [self.running = True; self.start_time = datetime.now()] *)
Definition set_started (w : World) : World :=
  {| name := name w; workflow := workflow w; interval_seconds := interval_seconds w;
     running := true; paused := paused w; step_count := step_count w;
     start_time := Some (clock w); last_run_time := last_run_time w;
     next_run_time := next_run_time w; daemon_mode := daemon_mode w;
     command_server := command_server w; clock := clock w; my_pid := my_pid w;
     procs := procs w; pid_file := pid_file w; sock_file := sock_file w;
     status_file := status_file w; status_writable := status_writable w;
     pid_write := pid_write w; sock_bindable := sock_bindable w;
     calls := calls w |}.

Definition set_daemon_mode (b : bool) (w : World) : World :=
  {| name := name w; workflow := workflow w; interval_seconds := interval_seconds w;
     running := running w; paused := paused w; step_count := step_count w;
     start_time := start_time w; last_run_time := last_run_time w;
     next_run_time := next_run_time w; daemon_mode := b;
     command_server := command_server w; clock := clock w; my_pid := my_pid w;
     procs := procs w; pid_file := pid_file w; sock_file := sock_file w;
     status_file := status_file w; status_writable := status_writable w;
     pid_write := pid_write w; sock_bindable := sock_bindable w;
     calls := calls w |}.

Definition set_command_server (b : bool) (w : World) : World :=
  {| name := name w; workflow := workflow w; interval_seconds := interval_seconds w;
     running := running w; paused := paused w; step_count := step_count w;
     start_time := start_time w; last_run_time := last_run_time w;
     next_run_time := next_run_time w; daemon_mode := daemon_mode w;
     command_server := b; clock := clock w; my_pid := my_pid w;
     procs := procs w; pid_file := pid_file w; sock_file := sock_file w;
     status_file := status_file w; status_writable := status_writable w;
     pid_write := pid_write w; sock_bindable := sock_bindable w;
     calls := calls w |}.

Definition set_pid_file (c : option string) (w : World) : World :=
  {| name := name w; workflow := workflow w; interval_seconds := interval_seconds w;
     running := running w; paused := paused w; step_count := step_count w;
     start_time := start_time w; last_run_time := last_run_time w;
     next_run_time := next_run_time w; daemon_mode := daemon_mode w;
     command_server := command_server w; clock := clock w; my_pid := my_pid w;
     procs := procs w; pid_file := c; sock_file := sock_file w;
     status_file := status_file w; status_writable := status_writable w;
     pid_write := pid_write w; sock_bindable := sock_bindable w;
     calls := calls w |}.

Definition set_sock_file (b : bool) (w : World) : World :=
  {| name := name w; workflow := workflow w; interval_seconds := interval_seconds w;
     running := running w; paused := paused w; step_count := step_count w;
     start_time := start_time w; last_run_time := last_run_time w;
     next_run_time := next_run_time w; daemon_mode := daemon_mode w;
     command_server := command_server w; clock := clock w; my_pid := my_pid w;
     procs := procs w; pid_file := pid_file w; sock_file := b;
     status_file := status_file w; status_writable := status_writable w;
     pid_write := pid_write w; sock_bindable := sock_bindable w;
     calls := calls w |}.

Definition set_status_file (s : Snapshot) (w : World) : World :=
  {| name := name w; workflow := workflow w; interval_seconds := interval_seconds w;
     running := running w; paused := paused w; step_count := step_count w;
     start_time := start_time w; last_run_time := last_run_time w;
     next_run_time := next_run_time w; daemon_mode := daemon_mode w;
     command_server := command_server w; clock := clock w; my_pid := my_pid w;
     procs := procs w; pid_file := pid_file w; sock_file := sock_file w;
     status_file := Some s; status_writable := status_writable w;
     pid_write := pid_write w; sock_bindable := sock_bindable w;
     calls := calls w |}.

Definition add_call (v : Variant) (w : World) : World :=
  {| name := name w; workflow := workflow w; interval_seconds := interval_seconds w;
     running := running w; paused := paused w; step_count := step_count w;
     start_time := start_time w; last_run_time := last_run_time w;
     next_run_time := next_run_time w; daemon_mode := daemon_mode w;
     command_server := command_server w; clock := clock w; my_pid := my_pid w;
     procs := procs w; pid_file := pid_file w; sock_file := sock_file w;
     status_file := status_file w; status_writable := status_writable w;
     pid_write := pid_write w; sock_bindable := sock_bindable w;
     calls := app (calls w) [v] |}.

(** ** The state-and-exception monad *)

Definition M (A : Type) : Type := World -> (A + exn) * World.

Definition ret {A} (a : A) : M A := fun w => (inl a, w).
Definition raise {A} (e : exn) : M A := fun w => (inr e, w).
Definition get : M World := fun w => (inl w, w).
Definition modify (f : World -> World) : M unit := fun w => (inl tt, f w).

Definition bind {A B} (m : M A) (k : A -> M B) : M B :=
  fun w => match m w with
           | (inl a, w') => k a w'
           | (inr e, w') => (inr e, w')
           end.

Declare Scope monad_scope.
Notation "x <- m ;; k" := (bind m (fun x => k))
  (at level 100, m at next level, right associativity) : monad_scope.
Notation "m ;; k" := (bind m (fun _ => k))
  (at level 100, right associativity) : monad_scope.
Open Scope monad_scope.

(** [try: m except ...: h e]; [h e = None] means no clause matches and
    the exception propagates. *)
Definition try_except {A} (m : M A) (h : exn -> option (M A)) : M A :=
  fun w => match m w with
           | (inl a, w') => (inl a, w')
           | (inr e, w') =>
               match h e with
               | Some k => k w'
               | None => (inr e, w')
               end
           end.

(** [try: m finally: fin] *)
Definition try_finally {A} (m : M A) (fin : M unit) : M A :=
  fun w => match m w with
           | (r, w') =>
               match fin w' with
               | (inl _, w'') => (r, w'')
               | (inr e, w'') => (inr e, w'')
               end
           end.

(** [except Exception as e: <log>] *)
Definition log_exceptions (e : exn) : option (M unit) :=
  if is_exception e then Some (ret tt) else None.

(** ** Python string helpers (ASCII) *)

(** [str.isspace] on ASCII: [\t \n \v \f \r], [\x1c]-[\x1f] and space;
    the characters [str.split()], [str.strip()] and [int()] skip. *)
Definition is_space (c : ascii) : bool :=
  let n := nat_of_ascii c in
  ((9 <=? n)%nat && (n <=? 13)%nat) || ((28 <=? n)%nat && (n <=? 31)%nat)
  || (n =? 32)%nat.

Fixpoint lstrip (l : list ascii) : list ascii :=
  match l with
  | c :: l' => if is_space c then lstrip l' else l
  | [] => []
  end.

(** [s.strip()] *)
Definition py_strip_list (l : list ascii) : list ascii :=
  rev (lstrip (rev (lstrip l))).

Definition py_strip (s : string) : string :=
  string_of_list_ascii (py_strip_list (list_ascii_of_string s)).

(** [s.split()]: maximal runs of non-space characters. *)
Fixpoint split_words (cur : list ascii) (l : list ascii) : list (list ascii) :=
  match l with
  | [] => match cur with [] => [] | _ => [rev cur] end
  | c :: l' =>
      if is_space c then
        match cur with
        | [] => split_words [] l'
        | _ => rev cur :: split_words [] l'
        end
      else split_words (c :: cur) l'
  end.

Definition py_split (s : string) : list string :=
  map string_of_list_ascii (split_words [] (list_ascii_of_string s)).

Definition digit_value (c : ascii) : option Z :=
  let n := nat_of_ascii c in
  if ((48 <=? n)%nat && (n <=? 57)%nat) then Some (Z.of_nat n - 48) else None.

(** Digits after the first one; a single [_] may separate two digits. *)
Fixpoint digits_from (acc : Z) (l : list ascii) : option Z :=
  match l with
  | [] => Some acc
  | c :: l' =>
      match digit_value c with
      | Some d => digits_from (10 * acc + d) l'
      | None =>
          if Ascii.eqb c "_"%char then
            match l' with
            | c' :: l'' =>
                match digit_value c' with
                | Some d => digits_from (10 * acc + d) l''
                | None => None
                end
            | [] => None
            end
          else None
      end
  end.

Definition py_digits (l : list ascii) : option Z :=
  match l with
  | c :: l' =>
      match digit_value c with
      | Some d => digits_from d l'
      | None => None
      end
  | [] => None
  end.

(** [int(s)] on a [str] of ASCII characters: surrounding white space,
    an optional sign, decimal digits with single underscores between
    them; [None] is the [ValueError]. *)
Definition py_int (s : string) : option Z :=
  match py_strip_list (list_ascii_of_string s) with
  | c :: l =>
      if Ascii.eqb c "+"%char then py_digits l
      else if Ascii.eqb c "-"%char then option_map Z.opp (py_digits l)
      else py_digits (c :: l)
  | [] => None
  end.

(** Whether every character of [s] is ASCII (code below 128). Python's
    [str.strip], [str.split] and [int] also know the non-ASCII white
    space and decimal digits of Unicode, which [is_space] and
    [digit_value] leave out; on ASCII strings they agree (for [int], on
    fewer digits than Python's default limit of 4300). *)
Definition is_ascii_string (s : string) : bool :=
  forallb (fun c => Nat.ltb (nat_of_ascii c) 128) (list_ascii_of_string s).

Fixpoint pos_digits (fuel : nat) (p : positive) (acc : string) : string :=
  match fuel with
  | O => acc
  | S fuel' =>
      let q := Z.pos p / 10 in
      let r := Z.pos p mod 10 in
      let acc' := String (ascii_of_nat (48 + Z.to_nat r)) acc in
      match q with
      | Zpos q' => pos_digits fuel' q' acc'
      | _ => acc'
      end
  end.

(** [str(n)] for an [int]. *)
Definition z_to_dec (n : Z) : string :=
  match n with
  | Z0 => "0"
  | Zpos p => pos_digits (Pos.size_nat p) p ""
  | Zneg p => String "-"%char (pos_digits (Pos.size_nat p) p "")
  end.

(** ** The scheduler *)

(** [get_status]; only [str(self.workflow)] can raise. *)
Definition get_status : M Snapshot :=
  w <- get ;;
  match wf_repr (workflow w) with
  | None => raise (OtherExn "workflow __str__ failed")
  | Some r =>
      ret {| sn_name := name w; sn_running := running w; sn_paused := paused w;
             sn_daemon_mode := daemon_mode w; sn_step_count := step_count w;
             sn_interval_seconds := interval_seconds w;
             sn_start_time := start_time w; sn_last_run_time := last_run_time w;
             sn_next_run_time := next_run_time w;
             sn_uptime_seconds :=
               match start_time w with Some t => clock w - t | None => 0 end;
             sn_pid := my_pid w; sn_workflow := r |}
  end.

(** [json.dump(..., f)] into the status file; [open] fails with an
    [OSError] when the file cannot be written. *)
Definition write_status (s : Snapshot) : M unit :=
  w <- get ;;
  if status_writable w then modify (set_status_file s) else raise OSError.

(** [_update_status] *)
Definition update_status : M unit :=
  try_except (s <- get_status ;; write_status s) log_exceptions.

(** [stop] *)
Definition stop : M unit :=
  w <- get ;;
  if running w then modify (set_running false) ;; update_status
  else ret tt.

(** [pause] *)
Definition pause : M unit :=
  w <- get ;;
  if running w && negb (paused w) then modify (set_paused true) ;; update_status
  else ret tt.

(** [resume] *)
Definition resume : M unit :=
  w <- get ;;
  if running w && paused w then modify (set_paused false) ;; update_status
  else ret tt.

(** The signal handlers: SIGINT/SIGTERM, SIGUSR1, SIGUSR2. *)
Definition signal_handler : M unit := stop.
Definition pause_handler : M unit := pause.
Definition resume_handler : M unit := resume.

Definition int_or_value_error (s : string) : M Z :=
  match py_int s with Some n => ret n | None => raise ValueError end.

(** [command.split()[1]] *)
Definition index_1 (l : list string) : M string :=
  match nth_error l 1 with Some s => ret s | None => raise IndexError end.

Definition invalid_interval_msg : string :=
  "Invalid interval format. Use: interval <seconds>".

Section Commands.

(** [json.dumps(..., indent=2)] of the status dictionary. *)
Variable json_dumps : Snapshot -> string.

(** The body of the outer [try] of [_handle_command]. *)
Definition handle_command_body (command : string) : M string :=
  if String.eqb command "status" then
    s <- get_status ;; ret (json_dumps s)
  else if String.eqb command "stop" then
    stop ;; ret "Scheduler stopped"
  else if String.eqb command "pause" then
    pause ;; ret "Scheduler paused"
  else if String.eqb command "resume" then
    resume ;; ret "Scheduler resumed"
  else if String.prefix "interval " command then
    try_except
      (arg <- index_1 (py_split command) ;;
       new_interval <- int_or_value_error arg ;;
       modify (set_interval new_interval) ;;
       ret ("Interval changed to " ++ z_to_dec new_interval ++ " seconds"))
      (fun e => match e with
                | ValueError | IndexError => Some (ret invalid_interval_msg)
                | _ => None
                end)
  else ret ("Unknown command: " ++ command).

(** [_handle_command] *)
Definition handle_command (command : string) : M string :=
  try_except (handle_command_body command)
    (fun e => if is_exception e then Some (ret ("Command error: " ++ exn_msg e))
              else None).

End Commands.

(** ** Steps *)

(** What the called workflow method does: return a truth value, or raise. *)
Inductive StepOutcome :=
| Returned (success : bool)
| Raised (e : exn).

(** [self.workflow.init_run()] or [self.workflow.run()]. *)
Definition call_workflow (v : Variant) (o : StepOutcome) : M bool :=
  modify (add_call v) ;;
  match o with
  | Returned b => ret b
  | Raised e => raise e
  end.

(** [_execute_step], the called method behaving as [o]. *)
Definition execute_step (o : StepOutcome) : M unit :=
  try_except
    (w <- get ;;
     let v := if Z.eqb (step_count w) 0 && has_init_run (workflow w)
              then InitRun else LoopRun in
     success <- call_workflow v o ;;
     if success then modify record_success else ret tt)
    log_exceptions.

(** ** The inter-step wait

    [_wait_for_next_step] runs in the loop thread while the command
    server thread and the signal handlers update the scheduler; [obs k]
    is the scheduler as the loop condition sees it at its [k]-th test
    (one test per second slept). The result is the number of loop
    iterations, i.e. seconds slept. *)

Definition wait_guard (remaining : Z) (w : World) : bool :=
  Z.ltb 0 remaining && running w && negb (paused w).

(** [sleep_time = min(1, remaining); remaining -= sleep_time] *)
Definition wait_decrement (remaining : Z) : Z := remaining - Z.min 1 remaining.

Fixpoint wait_iter (fuel : nat) (obs : nat -> World) (k : nat) (remaining : Z) : nat :=
  match fuel with
  | O => O
  | S fuel' =>
      if wait_guard remaining (obs k)
      then S (wait_iter fuel' obs (S k) (wait_decrement remaining))
      else O
  end.

(** The loop [while remaining > 0 and self.running and not self.paused];
    [remaining] drops by at least one per iteration, so
    [Z.to_nat remaining + 1] rounds bound the loop (the last one fails
    the test); [wait_iter_fuel] below shows more rounds change
    nothing. *)
Definition wait_loop (obs : nat -> World) (k : nat) (remaining : Z) : nat :=
  wait_iter (S (Z.to_nat remaining)) obs k remaining.

(** [_wait_for_next_step]: [remaining = self.interval_seconds], read
    once, when the wait starts. *)
Definition wait_for_next_step (obs : nat -> World) : nat :=
  wait_loop obs O (interval_seconds (obs O)).

(** ** Cleanup, run loop, start *)

(** [_cleanup]; [close] and [unlink] are modelled as succeeding. *)
Definition cleanup : M unit :=
  try_except
    (w <- get ;;
     (if command_server w then modify (set_command_server false) else ret tt) ;;
     w <- get ;;
     (if sock_file w then modify (set_sock_file false) else ret tt) ;;
     w <- get ;;
     (match pid_file w with
      | Some _ => modify (set_pid_file None)
      | None => ret tt
      end))
    log_exceptions.

(** The start of [_run_loop], before the [try]. *)
Definition run_loop_prologue : M unit :=
  modify set_started ;; update_status.

(** [_run_loop]; [loop] is the [while self.running: ...] block, any
    computation (it may return, or raise anything). *)
Definition run_loop (loop : M unit) : M unit :=
  run_loop_prologue ;;
  try_finally
    (try_except loop
       (fun e => match e with
                 | KeyboardInterrupt => Some (ret tt)
                 | _ => log_exceptions e
                 end))
    (modify (set_running false) ;; update_status ;; cleanup).


(** [start_foreground] *)


(** [_write_pid_file]: [with open(self.pid_file, 'w') as f:
    f.write(str(os.getpid()))], any [Exception] logged. *)
Definition write_pid_file : M unit :=
  try_except
    (w <- get ;;
     match pid_write w with
     | PidOk => modify (set_pid_file (Some (z_to_dec (my_pid w))))
     | PidOpenFails => raise OSError
     | PidWriteFails => modify (set_pid_file (Some EmptyString)) ;; raise OSError
     end)
    log_exceptions.

(** [self.command_socket_path] *)
Definition command_socket_path (w : World) : string :=
  "/tmp/ithaca_scheduler_" ++ name w ++ ".sock".

(** [_start_command_server]: remove a left-over socket file, then the
    server thread creates the socket, binds it (creating the file),
    listens and sets [self.command_server]; any [Exception] there is
    logged by the thread. [bind] fails with an [OSError] ("AF_UNIX path
    too long") when the path is longer than the 108 bytes of
    [sun_path], and for the reasons [sock_bindable] stands for. The
    thread is taken to get through [bind] before the run loop ends. *)
Definition start_command_server : M unit :=
  w <- get ;;
  (if sock_file w then modify (set_sock_file false) else ret tt) ;;
  try_except
    (w <- get ;;
     if sock_bindable w && Nat.leb (String.length (command_socket_path w)) 108
     then modify (set_sock_file true) ;; modify (set_command_server true)
     else raise OSError)
    log_exceptions.

(** [os.kill(pid, 0)]: [pid] goes through a C [int]. A positive [pid]
    succeeds when it is in [live], the processes this process may
    signal; a dead process (ESRCH) and another user's process (EPERM)
    both fail with an [OSError]. [0] (the caller's own group) succeeds;
    [-1] is taken to succeed, although Linux fails with ESRCH when no
    process exists besides init and the caller; [-p] names the process
    group [p] (groups identified with their leaders). *)
Definition kill0_ok (live : list Z) (pid : Z) : bool :=
  if Z.ltb 0 pid then existsb (Z.eqb pid) live
  else if Z.eqb pid 0 || Z.eqb pid (-1) then true
  else existsb (Z.eqb (- pid)) live.

Definition os_kill0 (pid : Z) : M unit :=
  if Z.ltb pid (- 2 ^ 31) || Z.ltb (2 ^ 31 - 1) pid then raise OverflowError
  else w <- get ;; if kill0_ok (procs w) pid then ret tt else raise OSError.

(** [_is_running] *)
Definition is_running : M bool :=
  w <- get ;;
  match pid_file w with
  | None => ret false
  | Some content =>
      try_except
        (pid <- int_or_value_error (py_strip content) ;;
         os_kill0 pid ;;
         ret true)
        (fun e => match e with
                  | OSError | ValueError =>
                      Some (w <- get ;;
                            (match pid_file w with
                             | Some _ => modify (set_pid_file None)
                             | None => ret tt
                             end) ;;
                            ret false)
                  | _ => None
                  end)
  end.

(** How the two [os.fork] calls of [start_daemon] go, seen from the
    process that continues. *)
Inductive ForkResult := ForksOk | FirstForkFails | SecondForkFails.

(** What the daemon does between the forks and [_run_loop]. *)
Definition start_daemon_setup : M unit :=
  write_pid_file ;;
  modify (set_daemon_mode true) ;;
  start_command_server.

(** [start_daemon] after the [_is_running] check, in the daemon. *)
Definition start_daemon_continue (f : ForkResult) (loop : M unit) : M bool :=
  match f with
  | FirstForkFails => ret false
  | SecondForkFails => raise SystemExit
  | ForksOk => start_daemon_setup ;; run_loop loop ;; ret true
  end.

(** [start_daemon] *)
Definition start_daemon (f : ForkResult) (loop : M unit) : M bool :=
  b <- is_running ;;
  if b then ret false else start_daemon_continue f loop.

(** [SimpleScheduler(workflow, interval_seconds, name)] in a process with
    id [pid] at time [now], with the live processes [live] and the
    files already present; the status file and the PID file can be
    written and the socket can be bound. *)
Definition new_scheduler (wf : Workflow) (interval : Z) (nm : string)
    (now pid : Z) (live : list Z) (pidf : option string) (sockf : bool) : World :=
  mkWorld nm wf interval false false 0 None None None false false
          now pid live pidf sockf None true PidOk true [].

(** Whether the workflow method returned success. *)
Definition outcome_success (o : StepOutcome) : bool :=
  match o with Returned b => b | Raised _ => false end.

(** Concrete inputs. *)
Definition wf_with_init : Workflow := mkWorkflow true (Some "workflow").

Definition fresh_world : World :=
  new_scheduler wf_with_init 10 "scheduler" 1000 4242 [4242] None false.

Definition wf_failing_str : Workflow := mkWorkflow false None.

(** The lifecycle invariant "paused implies running". *)
Definition paused_implies_running (w : World) : Prop :=
  paused w = true -> running w = true.

(** The PID file of a process that has exited. *)
Definition stale_world : World :=
  new_scheduler wf_with_init 10 "scheduler" 1000 4242 [4242] (Some "99999 ") false.

(** [remaining] after [n] iterations. *)
Fixpoint decrements (n : nat) (remaining : Z) : Z :=
  match n with
  | O => remaining
  | S n' => decrements n' (wait_decrement remaining)
  end.

(** The scheduler right after [_run_loop] started: running, not paused,
    a 10 second interval. *)
Definition running_world : World := snd (run_loop_prologue fresh_world).

(** An unchanging scheduler, seen at every test of the wait loop. *)
Definition obs_running (w : World) : nat -> World := fun _ => w.

(** The loop sleeping under a 10 second interval; the command
    [interval 2] is handled during its first second. *)
Definition obs_interval_command : nat -> World :=
  fun j => match j with
           | O => running_world
           | S _ => snd (handle_command (fun _ => "{}") "interval 2" running_world)
           end.

(** ** The command channel, server and client side *)

(** One connection of the server thread of [_start_command_server]:
    [conn.recv(1024).decode('utf-8').strip()], then [_handle_command];
    characters stand for the bytes of an ASCII command. *)
Definition serve_connection (json_dumps : Snapshot -> string) (data : string) : M string :=
  handle_command json_dumps (py_strip (substring 0 1024 data)).

(** [send_command] of [bk/scheduler_cli.py], run against this scheduler
    (the only instance on the machine, named [name w]). The socket
    exists for [scheduler_name] when the names agree and the file is
    there; with no listener behind it, [connect] fails with
    [ConnectionRefusedError]. [None]: the connection is accepted by the
    kernel but never served, because the server's accept loop has left
    [while self.running]. The reply is [client.recv(4096)]. *)
Definition send_command (json_dumps : Snapshot -> string)
    (scheduler_name command : string) : M (option string) :=
  w <- get ;;
  if negb (String.eqb scheduler_name (name w) && sock_file w) then
    ret (Some ("Scheduler '" ++ scheduler_name ++ "' is not running"))
  else if negb (command_server w) then
    ret (Some ("Error communicating with scheduler: " ++
               "[Errno 111] Connection refused"))
  else if negb (running w) then ret None
  else
    response <- serve_connection json_dumps command ;;
    ret (Some (substring 0 4096 response)).

(** The [interval] branch of the CLI's [main]:
    [send_command(scheduler_name, f"interval {args.seconds}")]. *)
Definition cli_interval (json_dumps : Snapshot -> string)
    (scheduler_name : string) (seconds : Z) : M (option string) :=
  send_command json_dumps scheduler_name ("interval " ++ z_to_dec seconds).

(** ** [_sleep_with_check] of [ithaca/scheduler/simple_scheduler_.py]

    [still_running k] is [self.running] at the [k]-th test of the loop;
    the result is the number of sleeps and the seconds slept. *)
Fixpoint sleep_check_iter (fuel : nat) (still_running : nat -> bool) (k : nat)
    (seconds : Z) : nat * Z :=
  match fuel with
  | O => (O, 0)
  | S fuel' =>
      if Z.ltb 0 seconds && still_running k then
        let sleep_time := Z.min 60 seconds in
        let '(n, t) := sleep_check_iter fuel' still_running (S k) (seconds - sleep_time) in
        (S n, sleep_time + t)
      else (O, 0)
  end.

(** [while seconds > 0 and self.running: ...]; every sleep takes at least
    one second off [seconds], so [Z.to_nat seconds + 1] rounds suffice. *)
Definition sleep_with_check (still_running : nat -> bool) (seconds : Z) : nat * Z :=
  sleep_check_iter (S (Z.to_nat seconds)) still_running O seconds.

(** [_wait_for_next_cycle]: [self._sleep_with_check(self.interval_hours * 3600)]. *)
Definition wait_for_next_cycle (still_running : nat -> bool) (interval_hours : Z) : nat * Z :=
  sleep_with_check still_running (interval_hours * 3600).

(** ** More concrete inputs *)

(** The daemon right after [_run_loop] started: PID file, socket file
    and command server in place. *)
Definition daemon_world : World :=
  snd (run_loop_prologue (snd (start_daemon_setup fresh_world))).

(** A PID file holding an integer too large for a C [int]. *)
Definition overflow_world : World :=
  new_scheduler wf_with_init 10 "scheduler" 1000 4242 [4242] (Some "99999999999") false.

(** ** Lemmas on the operations *)

(** [_update_status] never raises; it writes the status file or, when
    [get_status] or the write fails, leaves everything as it was. *)
Lemma update_status_cases (w : World) :
  update_status w = (inl tt, w) \/
  exists s, update_status w = (inl tt, set_status_file s w).
Proof.
  unfold update_status, get_status, write_status, log_exceptions, try_except,
    bind, get, modify, ret, raise.
  destruct (wf_repr (workflow w)); simpl; [destruct (status_writable w)|];
    simpl; [right; eexists; reflexivity | left; reflexivity | left; reflexivity].
Qed.

(** ** C8: [stop] is idempotent *)

Lemma update_status_inl (w : World) : fst (update_status w) = inl tt.
Proof. destruct (update_status_cases w) as [E|[s E]]; rewrite E; reflexivity. Qed.

Lemma update_status_running (w : World) :
  running (snd (update_status w)) = running w /\
  paused (snd (update_status w)) = paused w.
Proof. destruct (update_status_cases w) as [E|[s E]]; rewrite E; auto. Qed.

Lemma stop_eq (w : World) :
  stop w = (if running w then (inl tt, snd (update_status (set_running false w)))
            else (inl tt, w)).
Proof.
  unfold stop, bind, get, modify, ret. destruct (running w); auto.
  simpl. rewrite <- (update_status_inl (set_running false w)).
  destruct (update_status (set_running false w)); reflexivity.
Qed.

(** C8: stopping twice is stopping once: [stop; stop] has the result and
    final state of a single [stop], [stop] never raises, and afterwards
    [running] is false. *)
Theorem stop_idempotent (w : World) :
  (stop ;; stop) w = stop w /\ fst (stop w) = inl tt /\
  running (snd (stop w)) = false.
Proof.
  unfold bind at 1. rewrite !stop_eq.
  destruct (running w) eqn:R; simpl.
  - rewrite stop_eq, (proj1 (update_status_running _)). simpl. auto.
  - rewrite stop_eq, R. auto.
Qed.

(** ** C5: [step_count] counts successful steps *)

Lemma execute_step_eq (o : StepOutcome) (w : World) :
  let v := if Z.eqb (step_count w) 0 && has_init_run (workflow w)
           then InitRun else LoopRun in
  snd (execute_step o w) =
    (if outcome_success o then record_success (add_call v w) else add_call v w).
Proof.
  unfold execute_step, try_except, bind, get, call_workflow, modify, ret, raise,
    log_exceptions.
  destruct o as [[|]|e]; simpl; auto.
  destruct (is_exception e); reflexivity.
Qed.

(** C5: one execution of [_execute_step] increases [step_count] by one
    when the workflow method returns success and leaves it unchanged when
    it returns failure or raises; [step_count] never decreases. *)
Theorem execute_step_count (o : StepOutcome) (w : World) :
  step_count (snd (execute_step o w)) =
    (if outcome_success o then step_count w + 1 else step_count w) /\
  step_count w <= step_count (snd (execute_step o w)).
Proof.
  rewrite execute_step_eq.
  destruct (outcome_success o); simpl; split; lia.
Qed.

(** ** C6: which workflow method a step calls *)

(** C6 (as amended): each step calls [init_run] exactly when the workflow
    has it and [step_count] is still 0, so [init_run] is called again
    after a failed first step, until a step succeeds; otherwise [run]. *)
Theorem execute_step_variant (o : StepOutcome) (w : World) :
  calls (snd (execute_step o w)) =
    app (calls w) [if Z.eqb (step_count w) 0 && has_init_run (workflow w)
                   then InitRun else LoopRun].
Proof.
  rewrite execute_step_eq.
  destruct (outcome_success o); reflexivity.
Qed.

(** C6: a first step whose [init_run] returns failure is followed by a
    second call to [init_run], not to [run]. *)
Lemma init_run_repeated_after_failure :
  calls (snd (execute_step (Returned true)
                (snd (execute_step (Returned false) fresh_world))))
  = [InitRun; InitRun].
Proof. vm_compute. reflexivity. Qed.

(** ** C4: the [interval] command *)

Lemma prefix_interval_not_keyword (cmd : string) :
  String.prefix "interval " cmd = true ->
  String.eqb cmd "status" = false /\ String.eqb cmd "stop" = false /\
  String.eqb cmd "pause" = false /\ String.eqb cmd "resume" = false.
Proof.
  intros Hp.
  repeat split; apply String.eqb_neq; intros ->; discriminate Hp.
Qed.

(** C4 (as amended): a command of at most 1024 ASCII characters (the
    server reads it with [recv(1024)]) starting with ["interval "] sets
    [interval_seconds] to [n] and answers ["Interval changed to n seconds"]
    when its second white-space separated word parses as a Python [int]
    [n] (any integer: zero and negative values included, later words
    ignored); when there is no second word or it does not parse, the
    answer is ["Invalid interval format. Use: interval <seconds>"] and the
    scheduler is unchanged. *)
Theorem handle_interval (json_dumps : Snapshot -> string) (cmd : string) (w : World) :
  String.prefix "interval " cmd = true ->
  is_ascii_string cmd = true -> (String.length cmd <= 1024)%nat ->
  handle_command json_dumps cmd w =
    match nth_error (py_split cmd) 1 with
    | Some arg =>
        match py_int arg with
        | Some n => (inl ("Interval changed to " ++ z_to_dec n ++ " seconds"),
                     set_interval n w)
        | None => (inl invalid_interval_msg, w)
        end
    | None => (inl invalid_interval_msg, w)
    end.
Proof.
  intros Hp _ _.
  destruct (prefix_interval_not_keyword cmd Hp) as (H1 & H2 & H3 & H4).
  unfold handle_command, handle_command_body.
  rewrite H1, H2, H3, H4, Hp.
  unfold try_except, bind, index_1, int_or_value_error, modify, ret, raise.
  destruct (nth_error (py_split cmd) 1) as [arg|]; [destruct (py_int arg)|];
    reflexivity.
Qed.

Lemma handle_interval_witness :
  handle_command (fun _ => "{}") "interval 5" fresh_world =
    (inl "Interval changed to 5 seconds", set_interval 5 fresh_world).
Proof.
  exact (handle_interval (fun _ => "{}") "interval 5" fresh_world eq_refl eq_refl
           ltac:(simpl; lia)).
Defined.

(** C4: [interval 0] and [interval -5] are accepted and set
    [interval_seconds] below 1. *)
Lemma interval_nonpositive_accepted :
  interval_seconds fresh_world = 10 /\
  handle_command (fun _ => "{}") "interval 0" fresh_world =
    (inl "Interval changed to 0 seconds", set_interval 0 fresh_world) /\
  handle_command (fun _ => "{}") "interval -5" fresh_world =
    (inl "Interval changed to -5 seconds", set_interval (-5) fresh_world).
Proof. vm_compute. auto. Qed.

(** ** C9: command handling never fails *)

Lemma bind_inl {A B} (m : M A) (k : A -> M B) (w : World) a w' :
  m w = (inl a, w') -> bind m k w = k a w'.
Proof. intros E. unfold bind. rewrite E. reflexivity. Qed.

Lemma stop_inl (w : World) : exists w', stop w = (inl tt, w').
Proof. rewrite stop_eq. destruct (running w); eauto. Qed.

Lemma pause_inl (w : World) : exists w', pause w = (inl tt, w').
Proof.
  unfold pause, bind, get, modify, ret.
  destruct (running w && negb (paused w)); simpl; eauto.
  destruct (update_status_cases (set_paused true w)) as [E|[s E]]; rewrite E; eauto.
Qed.

Lemma resume_inl (w : World) : exists w', resume w = (inl tt, w').
Proof.
  unfold resume, bind, get, modify, ret.
  destruct (running w && paused w); simpl; eauto.
  destruct (update_status_cases (set_paused false w)) as [E|[s E]]; rewrite E; eauto.
Qed.

Lemma get_status_raises (w : World) e w' :
  get_status w = (inr e, w') -> is_exception e = true.
Proof.
  unfold get_status, bind, get, ret, raise.
  destruct (wf_repr (workflow w)); intros H; inversion H; reflexivity.
Qed.

(** The body of [_handle_command] raises only instances of [Exception]. *)
Lemma handle_command_body_exception (json_dumps : Snapshot -> string) cmd
    (w : World) e w' :
  handle_command_body json_dumps cmd w = (inr e, w') -> is_exception e = true.
Proof.
  unfold handle_command_body.
  destruct (String.eqb cmd "status").
  { unfold bind at 1. destruct (get_status w) as [[s|e0] w0] eqn:G.
    - unfold ret; intros H; inversion H.
    - intros H; inversion H; subst. eapply get_status_raises; eauto. }
  destruct (String.eqb cmd "stop").
  { destruct (stop_inl w) as [w0 E]. rewrite (bind_inl _ _ _ _ _ E).
    unfold ret; intros H; inversion H. }
  destruct (String.eqb cmd "pause").
  { destruct (pause_inl w) as [w0 E]. rewrite (bind_inl _ _ _ _ _ E).
    unfold ret; intros H; inversion H. }
  destruct (String.eqb cmd "resume").
  { destruct (resume_inl w) as [w0 E]. rewrite (bind_inl _ _ _ _ _ E).
    unfold ret; intros H; inversion H. }
  destruct (String.prefix "interval " cmd).
  - unfold try_except, bind, index_1, int_or_value_error, modify, ret, raise.
    destruct (nth_error (py_split cmd) 1) as [arg|]; [destruct (py_int arg)|];
      simpl; intros H; inversion H.
  - unfold ret; intros H; inversion H.
Qed.

(** C9: [_handle_command] answers every string with a response and
    never raises; an exception inside it becomes the response
    ["Command error: <e>"] (with the changes made before it kept); a
    string that is none of [status], [stop], [pause], [resume] and does
    not start with ["interval "] is answered ["Unknown command: <input>"]
    and changes nothing. *)
Theorem handle_command_safe (json_dumps : Snapshot -> string) :
  (forall cmd w, exists r w', handle_command json_dumps cmd w = (inl r, w')) /\
  (forall cmd w, cmd <> "status" -> cmd <> "stop" -> cmd <> "pause" ->
     cmd <> "resume" -> String.prefix "interval " cmd = false ->
     handle_command json_dumps cmd w = (inl ("Unknown command: " ++ cmd), w)) /\
  (forall cmd w e w', handle_command_body json_dumps cmd w = (inr e, w') ->
     handle_command json_dumps cmd w = (inl ("Command error: " ++ exn_msg e), w')).
Proof.
  split; [|split].
  - intros cmd w. unfold handle_command, try_except.
    destruct (handle_command_body json_dumps cmd w) as [[r|e] w'] eqn:E;
      [do 2 eexists; reflexivity|].
    rewrite (handle_command_body_exception _ _ _ _ _ E).
    do 2 eexists; reflexivity.
  - intros cmd w H1 H2 H3 H4 Hp.
    unfold handle_command, handle_command_body.
    rewrite (proj2 (String.eqb_neq _ _) H1), (proj2 (String.eqb_neq _ _) H2),
      (proj2 (String.eqb_neq _ _) H3), (proj2 (String.eqb_neq _ _) H4), Hp.
    reflexivity.
  - intros cmd w e w' E. unfold handle_command, try_except. rewrite E.
    rewrite (handle_command_body_exception _ _ _ _ _ E). reflexivity.
Qed.

Lemma handle_command_safe_witness :
  handle_command (fun _ => "{}") "banana" fresh_world =
    (inl "Unknown command: banana", fresh_world) /\
  handle_command (fun _ => "{}") "" fresh_world =
    (inl "Unknown command: ", fresh_world) /\
  handle_command (fun _ => "{}") "status"
    (new_scheduler wf_failing_str 10 "scheduler" 1000 4242 [4242] None false) =
    (inl "Command error: workflow __str__ failed",
     new_scheduler wf_failing_str 10 "scheduler" 1000 4242 [4242] None false).
Proof.
  split; [|split].
  - apply (proj1 (proj2 (handle_command_safe (fun _ => "{}"))));
      try discriminate; reflexivity.
  - apply (proj1 (proj2 (handle_command_safe (fun _ => "{}"))));
      try discriminate; reflexivity.
  - apply (proj2 (proj2 (handle_command_safe (fun _ => "{}"))) "status"
      (new_scheduler wf_failing_str 10 "scheduler" 1000 4242 [4242] None false)
      (OtherExn "workflow __str__ failed")).
    reflexivity.
Defined.

(** ** C2: [paused] and [running] *)

Lemma pause_eq (w : World) :
  pause w = (if running w && negb (paused w)
             then (inl tt, snd (update_status (set_paused true w)))
             else (inl tt, w)).
Proof.
  unfold pause, bind, get, modify, ret. destruct (running w && negb (paused w)); auto.
  simpl. rewrite <- (update_status_inl (set_paused true w)).
  destruct (update_status (set_paused true w)); reflexivity.
Qed.

Lemma resume_eq (w : World) :
  resume w = (if running w && paused w
              then (inl tt, snd (update_status (set_paused false w)))
              else (inl tt, w)).
Proof.
  unfold resume, bind, get, modify, ret. destruct (running w && paused w); auto.
  simpl. rewrite <- (update_status_inl (set_paused false w)).
  destruct (update_status (set_paused false w)); reflexivity.
Qed.

Lemma update_status_inv (w : World) :
  paused_implies_running w -> paused_implies_running (snd (update_status w)).
Proof.
  unfold paused_implies_running. destruct (update_status_running w) as [R P].
  rewrite R, P. auto.
Qed.

Lemma pause_inv (w : World) :
  paused_implies_running w -> paused_implies_running (snd (pause w)).
Proof.
  intros H. rewrite pause_eq.
  destruct (running w) eqn:R; simpl; [|exact H].
  destruct (paused w); simpl; [exact H|].
  apply update_status_inv. unfold paused_implies_running; simpl; auto.
Qed.

Lemma resume_inv (w : World) :
  paused_implies_running w -> paused_implies_running (snd (resume w)).
Proof.
  intros H. rewrite resume_eq.
  destruct (running w && paused w); simpl; [|exact H].
  apply update_status_inv. unfold paused_implies_running; simpl; discriminate.
Qed.

Lemma handle_command_inv (json_dumps : Snapshot -> string) cmd (w : World) :
  cmd <> "stop" -> paused_implies_running w ->
  paused_implies_running (snd (handle_command json_dumps cmd w)).
Proof.
  intros Hs H. unfold handle_command, handle_command_body.
  rewrite (proj2 (String.eqb_neq _ _) Hs).
  destruct (String.eqb cmd "status").
  { unfold try_except, get_status, bind, get, ret, raise.
    destruct (wf_repr (workflow w)); simpl; exact H. }
  destruct (String.eqb cmd "pause").
  { destruct (pause_inl w) as [w0 E]. unfold try_except.
    rewrite (bind_inl _ _ _ _ _ E). simpl.
    replace w0 with (snd (pause w)) by (rewrite E; reflexivity).
    apply pause_inv; exact H. }
  destruct (String.eqb cmd "resume").
  { destruct (resume_inl w) as [w0 E]. unfold try_except.
    rewrite (bind_inl _ _ _ _ _ E). simpl.
    replace w0 with (snd (resume w)) by (rewrite E; reflexivity).
    apply resume_inv; exact H. }
  destruct (String.prefix "interval " cmd).
  - unfold try_except, bind, index_1, int_or_value_error, modify, ret, raise.
    destruct (nth_error (py_split cmd) 1) as [arg|]; [destruct (py_int arg)|];
      simpl; exact H.
  - exact H.
Qed.

(** C2 (as amended): [pause] and [resume] (by command or signal), the
    other commands, the start of the run loop and the steps keep
    "[paused] implies [running]"; [stop] (by command, by signal) sets
    [running] to false and leaves [paused] as it was, so stopping a
    paused scheduler gives [paused] true with [running] false. *)
Theorem paused_running_preserved (json_dumps : Snapshot -> string) :
  (forall w, paused_implies_running w ->
     paused_implies_running (snd (pause w)) /\
     paused_implies_running (snd (resume w)) /\
     paused_implies_running (snd (run_loop_prologue w)) /\
     (forall o, paused_implies_running (snd (execute_step o w))) /\
     (forall cmd, cmd <> "stop" ->
        paused_implies_running (snd (handle_command json_dumps cmd w)))) /\
  (forall w, running (snd (stop w)) = false /\ paused (snd (stop w)) = paused w).
Proof.
  split.
  - intros w H. split; [apply pause_inv; exact H|].
    split; [apply resume_inv; exact H|].
    split.
    { unfold run_loop_prologue, bind, modify.
      destruct (update_status_cases (set_started w)) as [E|[s E]]; rewrite E;
        unfold paused_implies_running; reflexivity. }
    split.
    { intros o. unfold paused_implies_running. rewrite execute_step_eq.
      destruct (outcome_success o); exact H. }
    intros cmd Hs. apply handle_command_inv; assumption.
  - intros w. rewrite stop_eq. destruct (running w) eqn:R; simpl; [|auto].
    destruct (update_status_running (set_running false w)) as [R' P'].
    rewrite R', P'. auto.
Qed.

Lemma paused_running_preserved_witness :
  paused_implies_running fresh_world /\
  paused_implies_running (snd (pause (snd (run_loop_prologue fresh_world)))).
Proof.
  split; [unfold paused_implies_running; discriminate|].
  assert (H : paused_implies_running (snd (run_loop_prologue fresh_world))).
  { apply (paused_running_preserved (fun _ => "{}")).
    unfold paused_implies_running; discriminate. }
  exact (proj1 (proj1 (paused_running_preserved (fun _ => "{}")) _ H)).
Defined.

(** C2: starting, then the commands [pause] and [stop] lead to a
    scheduler with [paused] true and [running] false. *)
Lemma paused_after_stop :
  let w := snd (handle_command (fun _ => "{}") "stop"
             (snd (handle_command (fun _ => "{}") "pause"
               (snd (run_loop_prologue fresh_world))))) in
  paused_implies_running fresh_world /\ paused w = true /\ running w = false /\
  ~ paused_implies_running w.
Proof.
  vm_compute. split; [intros; discriminate|]. split; [reflexivity|].
  split; [reflexivity|]. intros H. discriminate (H eq_refl).
Qed.

(** ** C3: PID file and command socket *)







Lemma write_pid_file_eq (w : World) :
  write_pid_file w =
    (inl tt, match pid_write w with
             | PidOk => set_pid_file (Some (z_to_dec (my_pid w))) w
             | PidOpenFails => w
             | PidWriteFails => set_pid_file (Some EmptyString) w
             end).
Proof.
  unfold write_pid_file, try_except, log_exceptions, bind, get, modify, ret, raise.
  destruct (pid_write w); reflexivity.
Qed.






(** ** C7: stale PID files *)

Lemma existsb_eqb_notin (p : Z) (l : list Z) :
  ~ In p l -> existsb (Z.eqb p) l = false.
Proof.
  intros Hn. apply Bool.not_true_iff_false. intros He.
  apply existsb_exists in He as (x & Hx & Ex).
  apply Z.eqb_eq in Ex. subst. exact (Hn Hx).
Qed.

(** C7: when the PID file does not hold an integer, or holds the pid of
    a process that is not alive, [_is_running] reports not-running and
    deletes the PID file, and [start_daemon] goes on to start the
    daemon exactly as it would have without the file. *)
Theorem stale_pid_file (f : ForkResult) (loop : M unit) (w : World) (c : string) :
  pid_file w = Some c ->
  (py_int (py_strip c) = None \/
   exists p, py_int (py_strip c) = Some p /\ 0 < p <= 2 ^ 31 - 1 /\ ~ In p (procs w)) ->
  is_running w = (inl false, set_pid_file None w) /\
  start_daemon f loop w = start_daemon_continue f loop (set_pid_file None w).
Proof.
  intros Hp Hc.
  assert (H : is_running w = (inl false, set_pid_file None w)).
  { unfold is_running. rewrite (bind_inl _ _ _ _ _ (eq_refl : get w = (inl w, w))).
    rewrite Hp. unfold try_except, int_or_value_error.
    destruct Hc as [N | (p & Ep & Hr & Hn)].
    - rewrite N. unfold bind, raise, get, modify, ret. rewrite Hp. reflexivity.
    - rewrite Ep. rewrite (bind_inl _ _ _ _ _ (eq_refl : ret p w = (inl p, w))).
      unfold os_kill0.
      replace (Z.ltb p (- 2 ^ 31) || Z.ltb (2 ^ 31 - 1) p) with false
        by (symmetry; apply Bool.orb_false_iff; split; apply Z.ltb_ge; lia).
      unfold kill0_ok.
      replace (Z.ltb 0 p) with true by (symmetry; apply Z.ltb_lt; lia).
      unfold bind, raise, get, modify, ret. simpl.
      rewrite (existsb_eqb_notin p (procs w) Hn), Hp. reflexivity. }
  split; [exact H|].
  unfold start_daemon. rewrite (bind_inl _ _ _ _ _ H). reflexivity.
Qed.

Lemma stale_pid_file_witness :
  is_running stale_world = (inl false, set_pid_file None stale_world) /\
  start_daemon ForksOk (ret tt) stale_world =
    start_daemon_continue ForksOk (ret tt) (set_pid_file None stale_world).
Proof.
  apply (stale_pid_file ForksOk (ret tt) stale_world "99999 " eq_refl).
  right. exists 99999. split; [reflexivity|]. split; [lia|].
  simpl. intros [E|[]]. discriminate E.
Defined.

(** ** The wait loop: C10 and C1 *)

Lemma wait_decrement_pos (remaining : Z) :
  0 < remaining -> wait_decrement remaining = remaining - 1.
Proof. unfold wait_decrement. intros H. lia. Qed.

Lemma wait_guard_true (remaining : Z) (w : World) :
  wait_guard remaining w = true ->
  0 < remaining /\ running w = true /\ paused w = false.
Proof.
  unfold wait_guard. intros H.
  apply andb_prop in H as [H P]. apply andb_prop in H as [L R].
  apply Z.ltb_lt in L. apply negb_true_iff in P. auto.
Qed.

Lemma wait_iter_fuel (fuel1 fuel2 : nat) (obs : nat -> World) (k : nat) (remaining : Z) :
  (Z.to_nat remaining < fuel1)%nat -> (Z.to_nat remaining < fuel2)%nat ->
  wait_iter fuel1 obs k remaining = wait_iter fuel2 obs k remaining.
Proof.
  revert fuel2 k remaining.
  induction fuel1 as [|f1 IH]; intros fuel2 k remaining H1 H2; [lia|].
  destruct fuel2 as [|f2]; [lia|]. simpl.
  destruct (wait_guard remaining (obs k)) eqn:G; [|reflexivity].
  apply wait_guard_true in G as (Pos & _ & _).
  rewrite (wait_decrement_pos _ Pos).
  f_equal. apply IH; lia.
Qed.

Lemma wait_iter_bound (fuel : nat) (obs : nat -> World) (k : nat) (remaining : Z) :
  (wait_iter fuel obs k remaining <= Z.to_nat remaining)%nat.
Proof.
  revert k remaining.
  induction fuel as [|f IH]; intros k remaining; simpl; [lia|].
  destruct (wait_guard remaining (obs k)) eqn:G; [|lia].
  apply wait_guard_true in G as (Pos & _ & _).
  rewrite (wait_decrement_pos _ Pos).
  specialize (IH (S k) (remaining - 1)). lia.
Qed.

Lemma wait_iter_exits (fuel : nat) (obs : nat -> World) (k : nat) (remaining : Z) :
  (Z.to_nat remaining < fuel)%nat ->
  wait_guard (decrements (wait_iter fuel obs k remaining) remaining)
             (obs (k + wait_iter fuel obs k remaining)%nat) = false.
Proof.
  revert k remaining.
  induction fuel as [|f IH]; intros k remaining H; [lia|]. simpl.
  destruct (wait_guard remaining (obs k)) eqn:G.
  - pose proof G as G'. apply wait_guard_true in G' as (Pos & _ & _).
    simpl. replace (k + S (wait_iter f obs (S k) (wait_decrement remaining)))%nat
      with (S k + wait_iter f obs (S k) (wait_decrement remaining))%nat by lia.
    apply IH. rewrite (wait_decrement_pos _ Pos). lia.
  - simpl. rewrite Nat.add_0_r. exact G.
Qed.

Lemma wait_iter_undisturbed (fuel : nat) (obs : nat -> World) (k : nat) (remaining : Z) :
  (forall j, running (obs j) = true /\ paused (obs j) = false) ->
  (Z.to_nat remaining < fuel)%nat ->
  wait_iter fuel obs k remaining = Z.to_nat remaining.
Proof.
  intros Hobs. revert k remaining.
  induction fuel as [|f IH]; intros k remaining H; [lia|]. simpl.
  unfold wait_guard at 1. destruct (Hobs k) as [R P]. rewrite R, P.
  destruct (Z.ltb_spec 0 remaining) as [Pos|NPos]; simpl.
  - rewrite (wait_decrement_pos _ Pos). rewrite IH by lia. lia.
  - lia.
Qed.

Lemma wait_iter_flags_only (fuel : nat) (obs obs' : nat -> World) (k : nat) (remaining : Z) :
  (forall j, running (obs j) = running (obs' j) /\ paused (obs j) = paused (obs' j)) ->
  wait_iter fuel obs k remaining = wait_iter fuel obs' k remaining.
Proof.
  intros Hobs. revert k remaining.
  induction fuel as [|f IH]; intros k remaining; simpl; [reflexivity|].
  unfold wait_guard. destruct (Hobs k) as [R P]. rewrite R, P.
  destruct (Z.ltb 0 remaining && running (obs' k) && negb (paused (obs' k)));
    [f_equal; apply IH | reflexivity].
Qed.

Lemma wait_iter_interrupted (fuel : nat) (obs : nat -> World) (k j : nat) (remaining : Z) :
  (k <= j)%nat -> running (obs j) = false \/ paused (obs j) = true ->
  (wait_iter fuel obs k remaining <= j - k)%nat.
Proof.
  intros Hkj Hj. revert k remaining Hkj.
  induction fuel as [|f IH]; intros k remaining Hkj; simpl; [lia|].
  destruct (wait_guard remaining (obs k)) eqn:G; [|lia].
  apply wait_guard_true in G as (_ & R & P).
  destruct (Nat.eq_dec k j) as [->|Hne].
  - destruct Hj as [Hj|Hj]; congruence.
  - specialize (IH (S k) (wait_decrement remaining)). lia.
Qed.

(** C10 (as amended): each iteration of [_wait_for_next_step] subtracts
    [min(1, remaining)], which is 1 while the loop runs; the loop stops
    by its own test (not by the iteration bound of [wait_loop]) after at
    most [max(0, remaining)] iterations, and after exactly that many
    when [running] stays true and [paused] stays false. *)
Theorem wait_terminates (obs : nat -> World) (k : nat) (remaining : Z) :
  (0 < remaining -> 0 < Z.min 1 remaining /\ wait_decrement remaining < remaining) /\
  (Z.of_nat (wait_loop obs k remaining) <= Z.max 0 remaining) /\
  (forall fuel, (Z.to_nat remaining < fuel)%nat ->
     wait_iter fuel obs k remaining = wait_loop obs k remaining) /\
  wait_guard (decrements (wait_loop obs k remaining) remaining)
             (obs (k + wait_loop obs k remaining)%nat) = false /\
  ((forall j, running (obs j) = true /\ paused (obs j) = false) ->
     wait_loop obs k remaining = Z.to_nat remaining).
Proof.
  split; [intros H; unfold wait_decrement; lia|].
  split; [pose proof (wait_iter_bound (S (Z.to_nat remaining)) obs k remaining);
          unfold wait_loop; lia|].
  split; [intros fuel H; apply wait_iter_fuel; lia|].
  split; [apply wait_iter_exits; lia|].
  intros Hobs. apply wait_iter_undisturbed; [exact Hobs | lia].
Qed.

Lemma wait_terminates_witness :
  wait_loop (obs_running running_world) 0 3 = 3%nat.
Proof.
  exact (proj2 (proj2 (proj2 (proj2 (wait_terminates (obs_running running_world) 0 3))))
          (fun _ => conj eq_refl eq_refl)).
Defined.

(** C10: with [interval_seconds = -3] (reachable through the command
    [interval -3]) the wait ends after 0 iterations, which is more than
    [interval_seconds]. *)
Lemma wait_negative_interval :
  wait_for_next_step (obs_running (set_interval (-3) running_world)) = 0%nat /\
  ~ (Z.of_nat (wait_for_next_step (obs_running (set_interval (-3) running_world)))
     <= interval_seconds (set_interval (-3) running_world)).
Proof.
  assert (E : wait_for_next_step (obs_running (set_interval (-3) running_world)) = 0%nat)
    by (vm_compute; reflexivity).
  split; [exact E|]. rewrite E. simpl. lia.
Qed.

(** C1 (as amended): the length of the inter-step wait is fixed by
    [interval_seconds] when the wait starts: a later change of
    [interval_seconds] does not alter it (only [running] and [paused]
    are read again, once per second), so the new interval takes effect
    from the following wait; undisturbed, the wait lasts the whole old
    interval; a [stop] or [pause] seen at second [j] ends it by second
    [j]. *)
Theorem wait_reads_interval_once :
  (forall obs obs' : nat -> World,
     (forall j, running (obs j) = running (obs' j) /\ paused (obs j) = paused (obs' j)) ->
     interval_seconds (obs 0%nat) = interval_seconds (obs' 0%nat) ->
     wait_for_next_step obs = wait_for_next_step obs') /\
  (forall obs : nat -> World,
     (forall j, running (obs j) = true /\ paused (obs j) = false) ->
     wait_for_next_step obs = Z.to_nat (interval_seconds (obs 0%nat))) /\
  (forall (obs : nat -> World) j,
     running (obs j) = false \/ paused (obs j) = true ->
     (wait_for_next_step obs <= j)%nat).
Proof.
  split; [|split].
  - intros obs obs' Hf Hi. unfold wait_for_next_step, wait_loop. rewrite Hi.
    apply wait_iter_flags_only. exact Hf.
  - intros obs Hobs. unfold wait_for_next_step, wait_loop.
    apply wait_iter_undisturbed; [exact Hobs | lia].
  - intros obs j Hj. unfold wait_for_next_step, wait_loop.
    pose proof (wait_iter_interrupted (S (Z.to_nat (interval_seconds (obs 0%nat))))
                  obs 0 j (interval_seconds (obs 0%nat)) (Nat.le_0_l j) Hj).
    lia.
Qed.

Lemma wait_reads_interval_once_witness :
  wait_for_next_step obs_interval_command = 10%nat.
Proof.
  exact (proj1 (proj2 wait_reads_interval_once) obs_interval_command
           (fun j => match j with O => conj eq_refl eq_refl
                                | S _ => conj eq_refl eq_refl end)).
Defined.

(** C1: after [interval 2] arrives one second into a 10 second wait,
    the wait still lasts 10 seconds, so the next step starts 9 seconds
    after the command, not within 3. *)
Lemma interval_change_not_prompt :
  interval_seconds (obs_interval_command 0%nat) = 10 /\
  interval_seconds (obs_interval_command 1%nat) = 2 /\
  wait_for_next_step obs_interval_command = 10%nat /\
  ~ (wait_for_next_step obs_interval_command <= 1 + 3)%nat.
Proof. vm_compute. split; [reflexivity|]. split; [reflexivity|].
  split; [reflexivity|]. lia. Qed.

(** ** Decimal text of integers: [int(str(n)) == n] *)

Lemma digit_char (r : Z) :
  0 <= r < 10 -> digit_value (ascii_of_nat (48 + Z.to_nat r)) = Some r.
Proof.
  intros H.
  assert (Hr : r = 0 \/ r = 1 \/ r = 2 \/ r = 3 \/ r = 4 \/ r = 5 \/ r = 6 \/
               r = 7 \/ r = 8 \/ r = 9) by lia.
  repeat destruct Hr as [->|Hr]; [reflexivity..|subst; reflexivity].
Qed.

Definition is_digit_char (c : ascii) : Prop := digit_value c <> None.

Lemma pos_digits_shape (f : nat) (p : positive) (acc : string) :
  Z.pos p < 10 ^ Z.of_nat f ->
  exists ds, list_ascii_of_string (pos_digits f p acc) = (ds ++ list_ascii_of_string acc)%list /\
    ds <> [] /\ Forall is_digit_char ds /\
    forall v rest, digits_from v (ds ++ rest)%list =
                   digits_from (v * 10 ^ Z.of_nat (length ds) + Z.pos p) rest.
Proof.
  revert p acc. induction f as [|f IH]; intros p acc H; [simpl in H; lia|].
  assert (Hdiv := Z.div_mod (Z.pos p) 10 ltac:(lia)).
  assert (Hmod := Z.mod_pos_bound (Z.pos p) 10 ltac:(lia)).
  assert (Hc := digit_char (Z.pos p mod 10) Hmod).
  set (c := ascii_of_nat (48 + Z.to_nat (Z.pos p mod 10))) in *.
  cbn [pos_digits]. fold c. clearbody c.
  destruct (Z.pos p / 10) as [|q|q] eqn:Q.
  - exists [c]. repeat split.
    + discriminate.
    + constructor; [unfold is_digit_char; rewrite Hc; discriminate | constructor].
    + intros v rest. cbn [app digits_from length]. rewrite Hc. f_equal.
      change (Z.of_nat 1) with 1. lia.
  - assert (Hq : Z.pos q < 10 ^ Z.of_nat f).
    { rewrite Nat2Z.inj_succ, Z.pow_succ_r in H by lia. lia. }
    destruct (IH q (String c acc) Hq) as (ds & E & Ne & Fd & Ev).
    exists (ds ++ [c])%list. rewrite E. cbn [list_ascii_of_string].
    rewrite <- app_assoc. cbn [app].
    repeat split.
    + destruct ds; [contradiction|discriminate].
    + apply Forall_app. split; [exact Fd|].
      constructor; [unfold is_digit_char; rewrite Hc; discriminate | constructor].
    + intros v rest. rewrite <- app_assoc. cbn [app]. rewrite Ev. cbn [digits_from].
      rewrite Hc. f_equal. rewrite length_app. cbn [length].
      rewrite Nat2Z.inj_add, Z.pow_add_r by lia. change (Z.of_nat 1) with 1. lia.
  - pose proof (Z.div_pos (Z.pos p) 10 ltac:(lia) ltac:(lia)). lia.
Qed.

Lemma pos_lt_pow_size (p : positive) : Z.pos p < 10 ^ Z.of_nat (Pos.size_nat p).
Proof.
  assert (H2 : Z.pos p < 2 ^ Z.of_nat (Pos.size_nat p)).
  { induction p as [p IH|p IH|]; simpl Pos.size_nat; try (simpl; lia);
      rewrite Nat2Z.inj_succ, Z.pow_succ_r by lia; lia. }
  assert (2 ^ Z.of_nat (Pos.size_nat p) <= 10 ^ Z.of_nat (Pos.size_nat p))
    by (apply Z.pow_le_mono_l; lia).
  lia.
Qed.

Lemma digit_not_space (c : ascii) : is_digit_char c -> is_space c = false.
Proof.
  unfold is_digit_char, digit_value, is_space. intros H.
  destruct ((48 <=? nat_of_ascii c)%nat && (nat_of_ascii c <=? 57)%nat) eqn:E;
    [|contradiction].
  apply andb_prop in E as [E1 E2]. apply Nat.leb_le in E1, E2.
  replace (nat_of_ascii c <=? 13)%nat with false by (symmetry; apply Nat.leb_gt; lia).
  replace (nat_of_ascii c <=? 31)%nat with false by (symmetry; apply Nat.leb_gt; lia).
  replace (nat_of_ascii c =? 32)%nat with false by (symmetry; apply Nat.eqb_neq; lia).
  rewrite !andb_false_r. reflexivity.
Qed.

Lemma lstrip_id (l : list ascii) :
  (forall c, hd_error l = Some c -> is_space c = false) -> lstrip l = l.
Proof.
  destruct l as [|c l]; simpl; [reflexivity|]. intros H. rewrite (H c eq_refl). reflexivity.
Qed.

Lemma py_strip_list_id (l : list ascii) :
  (forall c, hd_error l = Some c -> is_space c = false) ->
  (forall c, hd_error (rev l) = Some c -> is_space c = false) ->
  py_strip_list l = l.
Proof.
  intros H1 H2. unfold py_strip_list. rewrite (lstrip_id l H1), (lstrip_id _ H2).
  apply rev_involutive.
Qed.

Lemma hd_rev_app (a b : list ascii) c :
  b <> [] -> hd_error (rev (a ++ b)%list) = Some c -> In c b.
Proof.
  intros Hb. rewrite rev_app_distr.
  destruct (rev b) as [|x r] eqn:R.
  - apply (f_equal (@rev ascii)) in R. rewrite rev_involutive in R. contradiction.
  - simpl. intros E. inversion E; subst. apply in_rev. rewrite R. left. reflexivity.
Qed.

(** The characters of [str(n)]: a non-empty word without white space. *)
Lemma z_to_dec_word (n : Z) :
  list_ascii_of_string (z_to_dec n) <> [] /\
  Forall (fun c => is_space c = false) (list_ascii_of_string (z_to_dec n)).
Proof.
  destruct n as [|p|p].
  - simpl. split; [discriminate | repeat constructor].
  - destruct (pos_digits_shape (Pos.size_nat p) p "" (pos_lt_pow_size p))
      as (ds & E & Ne & Fd & _).
    simpl z_to_dec. rewrite E. simpl. rewrite app_nil_r. split; [exact Ne|].
    eapply Forall_impl; [|exact Fd]. exact digit_not_space.
  - destruct (pos_digits_shape (Pos.size_nat p) p "" (pos_lt_pow_size p))
      as (ds & E & Ne & Fd & _).
    simpl z_to_dec. simpl list_ascii_of_string. rewrite E. simpl. rewrite app_nil_r.
    split; [discriminate|]. constructor; [reflexivity|].
    eapply Forall_impl; [|exact Fd]. exact digit_not_space.
Qed.

Lemma py_strip_word (l : list ascii) :
  l <> [] -> Forall (fun c => is_space c = false) l -> py_strip_list l = l.
Proof.
  intros Ne F. apply py_strip_list_id.
  - intros c H. destruct l; [discriminate|]. inversion H; subst.
    inversion F; assumption.
  - intros c H. rewrite Forall_forall in F. apply F.
    apply in_rev. destruct (rev l); [discriminate|]. inversion H; subst. left; reflexivity.
Qed.

Lemma digits_head (c : ascii) (l : list ascii) :
  is_digit_char c -> py_digits (c :: l) = digits_from 0 (c :: l).
Proof.
  unfold is_digit_char. intros H. simpl.
  destruct (digit_value c) as [d|]; [reflexivity|contradiction].
Qed.

Lemma digit_not_sign (c : ascii) :
  is_digit_char c -> Ascii.eqb c "+"%char = false /\ Ascii.eqb c "-"%char = false.
Proof.
  intros H. split; apply Bool.not_true_iff_false; intros E;
    apply Ascii.eqb_eq in E; subst; apply H; reflexivity.
Qed.

Lemma py_int_z_to_dec (n : Z) : py_int (z_to_dec n) = Some n.
Proof.
  destruct (z_to_dec_word n) as [Ne Fw].
  unfold py_int. rewrite (py_strip_word _ Ne Fw).
  destruct n as [|p|p]; [reflexivity| |].
  - destruct (pos_digits_shape (Pos.size_nat p) p "" (pos_lt_pow_size p))
      as (ds & E & Ne' & Fd & Ev).
    simpl z_to_dec. rewrite E. simpl list_ascii_of_string. rewrite app_nil_r.
    destruct ds as [|c ds']; [contradiction|].
    inversion Fd as [|? ? Hc _]; subst.
    destruct (digit_not_sign c Hc) as [-> ->].
    rewrite (digits_head c ds' Hc).
    specialize (Ev 0 []). rewrite app_nil_r in Ev. rewrite Ev. reflexivity.
  - destruct (pos_digits_shape (Pos.size_nat p) p "" (pos_lt_pow_size p))
      as (ds & E & Ne' & Fd & Ev).
    simpl z_to_dec. simpl list_ascii_of_string. rewrite E. rewrite app_nil_r.
    simpl Ascii.eqb.
    destruct ds as [|c ds']; [contradiction|].
    inversion Fd as [|? ? Hc _]; subst.
    rewrite (digits_head c ds' Hc).
    specialize (Ev 0 []). rewrite app_nil_r in Ev. rewrite Ev. reflexivity.
Qed.

Lemma py_strip_z_to_dec (n : Z) : py_strip (z_to_dec n) = z_to_dec n.
Proof.
  destruct (z_to_dec_word n) as [Ne Fw]. unfold py_strip.
  rewrite (py_strip_word _ Ne Fw). apply string_of_list_ascii_of_string.
Qed.

(** ** Further properties of the scheduler *)

Lemma update_status_writes (w : World) (r : string) :
  status_writable w = true -> wf_repr (workflow w) = Some r ->
  exists s, update_status w = (inl tt, set_status_file s w) /\
            sn_running s = running w /\ sn_paused s = paused w /\
            sn_step_count s = step_count w /\
            sn_interval_seconds s = interval_seconds w.
Proof.
  intros Hw Hr.
  unfold update_status, get_status, write_status, log_exceptions, try_except,
    bind, get, modify, ret, raise.
  simpl. rewrite Hr. simpl. rewrite Hw. eexists. repeat split.
Qed.

(** [pause] followed by [resume] gives back the scheduler it started
    from, up to the status file written on the way. *)
Theorem pause_resume_roundtrip (w : World) :
  running w = true -> paused w = false ->
  fst ((pause ;; resume) w) = inl tt /\
  exists so, snd ((pause ;; resume) w) =
             match so with None => w | Some s => set_status_file s w end.
Proof.
  intros Hr Hp.
  assert (E1 : pause w = (inl tt, snd (update_status (set_paused true w))))
    by (rewrite pause_eq, Hr, Hp; reflexivity).
  rewrite (bind_inl _ _ _ _ _ E1).
  destruct (update_status_running (set_paused true w)) as [R1 P1].
  remember (snd (update_status (set_paused true w))) as w1 eqn:Hw1.
  cbn in R1, P1.
  assert (E2 : resume w1 = (inl tt, snd (update_status (set_paused false w1))))
    by (rewrite resume_eq, R1, P1, Hr; reflexivity).
  rewrite E2. split; [reflexivity|]. cbn [snd].
  destruct (update_status_cases (set_paused true w)) as [U1|[s1 U1]];
    rewrite U1 in Hw1; cbn [snd] in Hw1; subst w1;
    match goal with
    | |- context [update_status (set_paused false ?x)] =>
        destruct (update_status_cases (set_paused false x)) as [U2|[s2 U2]]
    end;
    rewrite U2; cbn [snd].
  - exists None. destruct w; cbn in *; subst; reflexivity.
  - exists (Some s2). destruct w; cbn in *; subst; reflexivity.
  - exists (Some s1). destruct w; cbn in *; subst; reflexivity.
  - exists (Some s2). destruct w; cbn in *; subst; reflexivity.
Qed.

Lemma pause_resume_roundtrip_witness :
  running running_world = true /\ paused running_world = false /\
  (fst ((pause ;; resume) running_world) = inl tt /\
   exists so, snd ((pause ;; resume) running_world) =
              match so with None => running_world
                          | Some s => set_status_file s running_world end).
Proof.
  split; [reflexivity|]. split; [reflexivity|].
  apply pause_resume_roundtrip; reflexivity.
Defined.

(** When [stop], [pause] or [resume] changes the running or paused flag
    and the status file can be written, the status file then records the
    new flags. *)
Theorem status_file_tracks_flags (op : M unit) (w : World) (r : string) :
  In op [stop; pause; resume] ->
  status_writable w = true -> wf_repr (workflow w) = Some r ->
  (running (snd (op w)), paused (snd (op w))) <> (running w, paused w) ->
  exists s, status_file (snd (op w)) = Some s /\
            sn_running s = running (snd (op w)) /\ sn_paused s = paused (snd (op w)).
Proof.
  intros Hop Hw Hr Hch.
  destruct Hop as [<-|[<-|[<-|[]]]].
  - rewrite stop_eq in *. destruct (running w) eqn:R; [|exfalso; apply Hch; cbn; rewrite ?R; reflexivity].
    destruct (update_status_writes (set_running false w) r Hw Hr) as (s & E & S1 & S2 & _).
    rewrite E in *. cbn [snd] in *. exists s. split; [reflexivity|]. rewrite S1, S2.
    split; reflexivity.
  - rewrite pause_eq in *. destruct (running w && negb (paused w));
      [|exfalso; apply Hch; cbn; rewrite ?R; reflexivity].
    destruct (update_status_writes (set_paused true w) r Hw Hr) as (s & E & S1 & S2 & _).
    rewrite E in *. cbn [snd] in *. exists s. split; [reflexivity|]. rewrite S1, S2.
    split; reflexivity.
  - rewrite resume_eq in *. destruct (running w && paused w);
      [|exfalso; apply Hch; cbn; rewrite ?R; reflexivity].
    destruct (update_status_writes (set_paused false w) r Hw Hr) as (s & E & S1 & S2 & _).
    rewrite E in *. cbn [snd] in *. exists s. split; [reflexivity|]. rewrite S1, S2.
    split; reflexivity.
Qed.

Lemma status_file_tracks_flags_witness :
  exists s, status_file (snd (stop running_world)) = Some s /\
            sn_running s = running (snd (stop running_world)) /\
            sn_paused s = paused (snd (stop running_world)).
Proof.
  apply (status_file_tracks_flags stop running_world "workflow").
  - left; reflexivity.
  - reflexivity.
  - reflexivity.
  - vm_compute. discriminate.
Defined.

(** After [stop] the scheduler is not running, and [pause] and [resume]
    (commands or SIGUSR1/SIGUSR2) leave it as it is. *)
Theorem stopped_ignores_pause_resume (w : World) :
  running (snd (stop w)) = false /\
  pause (snd (stop w)) = (inl tt, snd (stop w)) /\
  resume (snd (stop w)) = (inl tt, snd (stop w)).
Proof.
  assert (R : running (snd (stop w)) = false).
  { rewrite stop_eq. destruct (running w) eqn:E; cbn [snd]; [|exact E].
    rewrite (proj1 (update_status_running _)). reflexivity. }
  split; [exact R|]. rewrite pause_eq, resume_eq, R. split; reflexivity.
Qed.


Lemma cleanup_stops (w : World) :
  exists w', cleanup w = (inl tt, w') /\ running w' = running w /\
             command_server w' = false /\ sock_file w' = false /\ pid_file w' = None.
Proof.
  unfold cleanup, try_except, bind, get, modify, ret.
  destruct (command_server w) eqn:C; cbn;
    destruct (sock_file w) eqn:S; cbn; destruct (pid_file w) eqn:P; cbn;
    eexists; (split; [reflexivity | repeat split; cbn; rewrite ?C, ?S, ?P; reflexivity]).
Qed.

(** [_cleanup] closes the server and removes both files; running it a
    second time (the [atexit] hook after the [finally] block) changes
    nothing. *)
Theorem cleanup_twice (w : World) :
  (cleanup ;; cleanup) w = cleanup w /\
  command_server (snd (cleanup w)) = false /\
  sock_file (snd (cleanup w)) = false /\ pid_file (snd (cleanup w)) = None.
Proof.
  destruct (cleanup_stops w) as (w' & E & _ & C & S & P).
  rewrite (bind_inl _ _ _ _ _ E), E. cbn [snd]. repeat split; try assumption.
  unfold cleanup, try_except, bind, get, modify, ret.
  rewrite C, S, P. reflexivity.
Qed.



(** ** The PID file *)

Lemma is_running_alive (w : World) (c : string) (p : Z) :
  pid_file w = Some c -> py_int (py_strip c) = Some p ->
  - 2 ^ 31 <= p <= 2 ^ 31 - 1 -> kill0_ok (procs w) p = true ->
  is_running w = (inl true, w).
Proof.
  intros Hc Hp Hr Hk.
  unfold is_running. rewrite (bind_inl _ _ _ _ _ (eq_refl : get w = (inl w, w))).
  rewrite Hc. unfold try_except, int_or_value_error. rewrite Hp.
  rewrite (bind_inl _ _ _ _ _ (eq_refl : ret p w = (inl p, w))).
  unfold os_kill0.
  replace (Z.ltb p (- 2 ^ 31) || Z.ltb (2 ^ 31 - 1) p) with false
    by (symmetry; apply Bool.orb_false_iff; split; apply Z.ltb_ge; lia).
  unfold bind, get, ret, raise. rewrite Hk. reflexivity.
Qed.

Lemma kill0_ok_live (live : list Z) (p : Z) :
  0 < p -> In p live -> kill0_ok live p = true.
Proof.
  intros Hp Hin. unfold kill0_ok.
  replace (Z.ltb 0 p) with true by (symmetry; apply Z.ltb_lt; lia).
  apply existsb_exists. exists p. split; [exact Hin | apply Z.eqb_refl].
Qed.

(** [_write_pid_file] and [_is_running] agree: once a live process has
    written its pid, [_is_running] reports it running and keeps the
    file. *)
Theorem pid_file_roundtrip (w : World) :
  pid_write w = PidOk ->
  0 < my_pid w <= 2 ^ 31 - 1 -> In (my_pid w) (procs w) ->
  is_running (snd (write_pid_file w)) = (inl true, snd (write_pid_file w)).
Proof.
  intros Hw Hr Hin.
  rewrite write_pid_file_eq, Hw. cbn [snd].
  apply (is_running_alive _ (z_to_dec (my_pid w)) (my_pid w)).
  - reflexivity.
  - rewrite py_strip_z_to_dec. apply py_int_z_to_dec.
  - lia.
  - apply kill0_ok_live; [lia | exact Hin].
Qed.

Lemma pid_file_roundtrip_witness :
  is_running (snd (write_pid_file fresh_world)) =
    (inl true, snd (write_pid_file fresh_world)).
Proof.
  apply pid_file_roundtrip; [reflexivity | cbn; lia | left; reflexivity].
Defined.

(** A PID file holding an integer outside the range of a C [int]:
    [os.kill] raises [OverflowError], which [_is_running] does not
    catch; the file stays and [start_daemon] raises it. *)
Theorem pid_out_of_range (f : ForkResult) (loop : M unit) (w : World)
    (c : string) (p : Z) :
  pid_file w = Some c -> py_int (py_strip c) = Some p ->
  p < - 2 ^ 31 \/ 2 ^ 31 - 1 < p ->
  is_running w = (inr OverflowError, w) /\
  start_daemon f loop w = (inr OverflowError, w).
Proof.
  intros Hc Hp Hr.
  assert (H : is_running w = (inr OverflowError, w)).
  { unfold is_running. rewrite (bind_inl _ _ _ _ _ (eq_refl : get w = (inl w, w))).
    rewrite Hc. unfold try_except, int_or_value_error. rewrite Hp.
    rewrite (bind_inl _ _ _ _ _ (eq_refl : ret p w = (inl p, w))).
    unfold os_kill0.
    replace (Z.ltb p (- 2 ^ 31) || Z.ltb (2 ^ 31 - 1) p) with true
      by (symmetry; apply Bool.orb_true_iff;
          destruct Hr; [left | right]; apply Z.ltb_lt; lia).
    reflexivity. }
  split; [exact H|]. unfold start_daemon. unfold bind. rewrite H. reflexivity.
Qed.

Lemma pid_out_of_range_witness :
  is_running overflow_world = (inr OverflowError, overflow_world) /\
  start_daemon ForksOk (ret tt) overflow_world = (inr OverflowError, overflow_world).
Proof.
  apply (pid_out_of_range _ _ _ "99999999999" 99999999999).
  - reflexivity.
  - vm_compute. reflexivity.
  - right. lia.
Defined.

(** ** The command channel *)

Lemma list_ascii_of_string_append (s t : string) :
  list_ascii_of_string (s ++ t) = (list_ascii_of_string s ++ list_ascii_of_string t)%list.
Proof. induction s as [|c s IH]; simpl; [reflexivity | f_equal; exact IH]. Qed.

Lemma length_string_append (s t : string) :
  String.length (s ++ t) = (String.length s + String.length t)%nat.
Proof. induction s as [|c s IH]; simpl; [reflexivity | f_equal; exact IH]. Qed.

Lemma substring_full (s : string) (m : nat) :
  (String.length s <= m)%nat -> substring 0 m s = s.
Proof.
  revert m. induction s as [|c s IH]; intros m Hm; destruct m as [|m]; simpl in *;
    [reflexivity | reflexivity | lia | f_equal; apply IH; lia].
Qed.

Lemma split_words_word (l cur : list ascii) :
  l <> [] -> Forall (fun c => is_space c = false) l ->
  split_words cur l = [(rev cur ++ l)%list].
Proof.
  revert cur. induction l as [|c l IH]; intros cur Ne F; [contradiction|].
  inversion F as [|? ? Hc Fl]; subst. simpl. rewrite Hc.
  destruct l as [|c' l'].
  - reflexivity.
  - rewrite IH by (discriminate || exact Fl). simpl. rewrite <- app_assoc. reflexivity.
Qed.

Lemma py_split_interval (z : string) :
  list_ascii_of_string z <> [] ->
  Forall (fun c => is_space c = false) (list_ascii_of_string z) ->
  py_split ("interval " ++ z) = ["interval"; z].
Proof.
  intros Ne F. unfold py_split. rewrite list_ascii_of_string_append. simpl.
  rewrite (split_words_word _ [] Ne F). simpl.
  rewrite string_of_list_ascii_of_string. reflexivity.
Qed.

Lemma py_strip_interval (z : string) :
  list_ascii_of_string z <> [] ->
  Forall (fun c => is_space c = false) (list_ascii_of_string z) ->
  py_strip ("interval " ++ z) = "interval " ++ z.
Proof.
  intros Ne F. unfold py_strip. rewrite py_strip_list_id.
  - apply string_of_list_ascii_of_string.
  - intros c H. rewrite list_ascii_of_string_append in H. simpl in H.
    inversion H. reflexivity.
  - intros c H. rewrite list_ascii_of_string_append in H.
    apply hd_rev_app in H; [|exact Ne].
    rewrite Forall_forall in F. exact (F c H).
Qed.

Lemma serve_interval (json_dumps : Snapshot -> string) (n : Z) (w : World) :
  (String.length (z_to_dec n) <= 1015)%nat ->
  serve_connection json_dumps ("interval " ++ z_to_dec n) w =
    (inl ("Interval changed to " ++ z_to_dec n ++ " seconds"), set_interval n w).
Proof.
  intros Hl. destruct (z_to_dec_word n) as [Ne F].
  unfold serve_connection.
  rewrite substring_full by (rewrite length_string_append; simpl; lia).
  rewrite (py_strip_interval _ Ne F).
  assert (Hp : String.prefix "interval " ("interval " ++ z_to_dec n) = true)
    by (destruct (z_to_dec n); reflexivity).
  destruct (prefix_interval_not_keyword _ Hp) as (H1 & H2 & H3 & H4).
  unfold handle_command, handle_command_body.
  rewrite H1, H2, H3, H4, Hp.
  unfold try_except, bind, index_1, int_or_value_error, modify, ret, raise.
  rewrite (py_split_interval _ Ne F). cbn [nth_error].
  rewrite py_int_z_to_dec. reflexivity.
Qed.

(** [scheduler_cli.py interval NAME SECONDS] against the running
    scheduler [NAME] sets its interval to [SECONDS] and prints
    ["Interval changed to SECONDS seconds"]: the command the client
    sends is parsed back to the same integer by the server. *)
Theorem cli_interval_roundtrip (json_dumps : Snapshot -> string) (n : Z) (w : World) :
  (String.length (z_to_dec n) <= 1015)%nat ->
  sock_file w = true -> command_server w = true -> running w = true ->
  cli_interval json_dumps (name w) n w =
    (inl (Some ("Interval changed to " ++ z_to_dec n ++ " seconds")), set_interval n w).
Proof.
  intros Hl Hs Hc Hr.
  unfold cli_interval, send_command.
  rewrite (bind_inl _ _ _ _ _ (eq_refl : get w = (inl w, w))).
  rewrite String.eqb_refl, Hs, Hc, Hr. cbn [andb negb].
  rewrite (bind_inl _ _ _ _ _ (serve_interval json_dumps n w Hl)).
  unfold ret. rewrite substring_full; [reflexivity|].
  rewrite !length_string_append. simpl. lia.
Qed.

Lemma cli_interval_roundtrip_witness :
  cli_interval (fun _ => "{}") (name daemon_world) (-30) daemon_world =
    (inl (Some "Interval changed to -30 seconds"), set_interval (-30) daemon_world).
Proof.
  apply (cli_interval_roundtrip (fun _ => "{}") (-30) daemon_world).
  - vm_compute. lia.
  - vm_compute. reflexivity.
  - vm_compute. reflexivity.
  - vm_compute. reflexivity.
Defined.

(** ** [_sleep_with_check] of [simple_scheduler_.py] *)

Lemma sleep_check_iter_undisturbed (still_running : nat -> bool) :
  (forall j, still_running j = true) ->
  forall fuel k seconds, (Z.to_nat seconds < fuel)%nat ->
  sleep_check_iter fuel still_running k seconds =
    (Z.to_nat ((seconds + 59) / 60), Z.max 0 seconds).
Proof.
  intros Hs fuel. induction fuel as [|fuel IH]; intros k seconds Hf; [lia|].
  simpl. rewrite Hs, andb_true_r.
  destruct (Z.ltb_spec 0 seconds) as [Hp|Hp].
  - rewrite IH by lia. f_equal; [|lia].
    destruct (Z.le_gt_cases 60 seconds).
    + rewrite Z.min_l by lia.
      replace (seconds + 59) with ((seconds - 60 + 59) + 1 * 60) by lia.
      rewrite Z.div_add by lia.
      assert (0 <= (seconds - 60 + 59) / 60) by (apply Z.div_pos; lia). lia.
    + rewrite Z.min_r by lia.
      replace (seconds - seconds + 59) with 59 by lia.
      replace (seconds + 59) with ((seconds - 1) + 1 * 60) by lia.
      rewrite Z.div_add, (Z.div_small 59 60), (Z.div_small (seconds - 1) 60) by lia.
      reflexivity.
  - assert ((seconds + 59) / 60 < 1) by (apply Z.div_lt_upper_bound; lia).
    f_equal; lia.
Qed.

Lemma sleep_check_iter_stopped (still_running : nat -> bool) (j : nat) :
  still_running j = false ->
  forall fuel k seconds, (k <= j)%nat ->
  (fst (sleep_check_iter fuel still_running k seconds) <= j - k)%nat /\
  snd (sleep_check_iter fuel still_running k seconds) <= 60 * Z.of_nat (j - k).
Proof.
  intros Hj fuel. induction fuel as [|fuel IH]; intros k seconds Hk;
    cbn [sleep_check_iter fst snd]; [split; lia|].
  destruct (Z.ltb 0 seconds && still_running k) eqn:G; cbn [fst snd]; [|split; lia].
  apply andb_prop in G as [_ G].
  assert (Hkj : (k < j)%nat) by (destruct (Nat.eq_dec k j); [subst; congruence | lia]).
  destruct (IH (S k) (seconds - Z.min 60 seconds) ltac:(lia)) as [H1 H2].
  destruct (sleep_check_iter fuel still_running (S k) (seconds - Z.min 60 seconds))
    as [n t] eqn:E.
  cbn [fst snd] in *. split; [lia|].
  assert (Z.min 60 seconds <= 60) by lia. lia.
Qed.

(** While [self.running] stays true, [_sleep_with_check(seconds)] sleeps
    in one-minute slices: ceil(seconds / 60) sleeps, [seconds] seconds
    in all (nothing for [seconds <= 0]). *)
Theorem sleep_with_check_slices (still_running : nat -> bool) (seconds : Z) :
  (forall j, still_running j = true) ->
  sleep_with_check still_running seconds =
    (Z.to_nat ((seconds + 59) / 60), Z.max 0 seconds).
Proof.
  intros Hs. unfold sleep_with_check.
  apply sleep_check_iter_undisturbed; [exact Hs | lia].
Qed.

Lemma sleep_with_check_slices_witness :
  sleep_with_check (fun _ => true) 150 = (3%nat, 150).
Proof. apply (sleep_with_check_slices (fun _ => true) 150). intros j. reflexivity. Defined.

(** [_wait_for_next_cycle] with [interval_hours = h] and the scheduler
    left running: [60 * h] sleeps of a minute (none when [h <= 0]). *)
Theorem wait_for_next_cycle_minutes (still_running : nat -> bool) (h : Z) :
  (forall j, still_running j = true) ->
  wait_for_next_cycle still_running h = (Z.to_nat (60 * h), Z.max 0 (3600 * h)).
Proof.
  intros Hs. unfold wait_for_next_cycle, sleep_with_check.
  rewrite sleep_check_iter_undisturbed by (exact Hs || lia).
  replace (h * 3600 + 59) with (59 + (60 * h) * 60) by lia.
  rewrite Z.div_add, (Z.div_small 59 60) by lia.
  f_equal; lia.
Qed.

Lemma wait_for_next_cycle_minutes_witness :
  wait_for_next_cycle (fun _ => true) 2 = (120%nat, 7200).
Proof. apply (wait_for_next_cycle_minutes (fun _ => true) 2). intros j. reflexivity. Defined.

(** Once [self.running] is false at the [j]-th test of the loop,
    [_sleep_with_check] has slept at most [j] times and at most [60 * j]
    seconds: a stop is noticed within a minute. *)
Theorem sleep_with_check_stop (still_running : nat -> bool) (seconds : Z) (j : nat) :
  still_running j = false ->
  (fst (sleep_with_check still_running seconds) <= j)%nat /\
  snd (sleep_with_check still_running seconds) <= 60 * Z.of_nat j.
Proof.
  intros Hj. unfold sleep_with_check.
  destruct (sleep_check_iter_stopped still_running j Hj (S (Z.to_nat seconds)) O seconds
              ltac:(lia)) as [H1 H2].
  rewrite Nat.sub_0_r in H1, H2. auto.
Qed.

Lemma sleep_with_check_stop_witness :
  (fst (sleep_with_check (fun k => Nat.ltb k 2) 3600) <= 2)%nat /\
  snd (sleep_with_check (fun k => Nat.ltb k 2) 3600) <= 60 * Z.of_nat 2.
Proof. apply (sleep_with_check_stop (fun k => Nat.ltb k 2) 3600 2). reflexivity. Defined.

(** ** Commands that only read *)

(** A command other than [stop], [pause], [resume] and [interval ...]
    ([status], or anything unknown) leaves the scheduler as it is,
    whatever the answer. *)
Theorem other_commands_read_only (json_dumps : Snapshot -> string) (cmd : string) (w : World) :
  cmd <> "stop" -> cmd <> "pause" -> cmd <> "resume" ->
  String.prefix "interval " cmd = false ->
  snd (handle_command json_dumps cmd w) = w.
Proof.
  intros H1 H2 H3 H4.
  unfold handle_command, handle_command_body.
  rewrite (proj2 (String.eqb_neq cmd "stop") H1), (proj2 (String.eqb_neq cmd "pause") H2),
    (proj2 (String.eqb_neq cmd "resume") H3), H4.
  destruct (String.eqb cmd "status").
  - unfold try_except, get_status, bind, get, ret, raise.
    destruct (wf_repr (workflow w)); simpl; [reflexivity|]. reflexivity.
  - reflexivity.
Qed.

Lemma other_commands_read_only_witness :
  snd (handle_command (fun _ => "{}") "status" running_world) = running_world.
Proof.
  apply other_commands_read_only; try discriminate. reflexivity.
Defined.
